(** * MetaMetrics context provider (ui/app/contexts/metametrics.new.js)

    A shallow embedding of the Segment tracking glue of the extension UI:
    the page-view effect run by [MetaMetricsProvider] whenever the location
    changes, and the [trackEvent] callback it hands to its descendants.

    JavaScript values are an inductive type, objects are finite maps from
    property names to values, and the calls the code makes into the outside
    world ([segment.page], [segment.track], Sentry's [captureMessage]) are
    recorded in a trace, next to the way the call completes (normally or by
    a thrown error). *)

From Stdlib Require Import ZArith Ascii String.
From stdpp Require Import gmap strings fin_maps pretty.

Local Open Scope Z_scope.
Local Open Scope string_scope.

(** * JavaScript values *)

Module Js.

(** The values the code can meet.  Numbers are integers (the only number
    the code computes with is the send count) plus [NaN], which matters
    for truthiness.  An object is the map of its own enumerable
    properties; the code never depends on their order. *)
#[warnings="-register-all"]
Inductive JsValue : Type :=
  | JUndefined
  | JNull
  | JBool (b : bool)
  | JNum (n : Z)
  | JNaN
  | JStr (s : string)
  | JObj (o : gmap string JsValue).

(** [Boolean(v)], the test behind [if (v)], [!v], [a || b] and [v ? a : b]. *)
Definition toBoolean (v : JsValue) : bool :=
  match v with
  | JUndefined | JNull | JNaN => false
  | JBool b => b
  | JNum n => negb (Z.eqb n 0)
  | JStr s => negb (String.eqb s "")
  | JObj _ => true
  end.

(** [v === undefined || v === null]. *)
Definition isNullish (v : JsValue) : bool :=
  match v with
  | JUndefined | JNull => true
  | _ => false
  end.

(** [a ?? b]. *)
Definition nullishCoalesce (a b : JsValue) : JsValue :=
  if isNullish a then b else a.

(** A parameter or destructuring default, [x = d]: it applies to
    [undefined] only, not to [null]. *)
Definition withDefault (v d : JsValue) : JsValue :=
  match v with
  | JUndefined => d
  | _ => v
  end.

(** Property read [v.k] (also the read behind the destructuring
    [const { k } = v]).  [None] stands for the TypeError raised on
    [undefined] and [null]; a primitive is boxed, and none of the
    property names the code reads exists on the boxes' prototypes. *)
Definition getProp (v : JsValue) (k : string) : option JsValue :=
  match v with
  | JUndefined | JNull => None
  | JObj o => Some (default JUndefined (o !! k))
  | _ => Some JUndefined
  end.

(** [s.startsWith(p)]. *)
Definition startsWith (s p : string) : bool := String.prefix p s.

(** The index properties of a boxed string, ["ab"] giving
    [{0: "a", 1: "b"}]. *)
Fixpoint stringIndexProps (i : nat) (s : string) : gmap string JsValue :=
  match s with
  | EmptyString => ∅
  | String c s' => <[pretty i := JStr (String c EmptyString)]> (stringIndexProps (S i) s')
  end.

(** The enumerable properties lodash copies out of a value
    ([copyObject(object, getAllKeysIn(object), result)]). *)
Definition enumerableProps (v : JsValue) : gmap string JsValue :=
  match v with
  | JObj o => o
  | JStr s => stringIndexProps 0 s
  | _ => ∅
  end.

(** lodash's [omit(object, paths)] for top-level property names: a copy
    of the object's properties from which the listed ones are deleted,
    the last one first; [{}] for [null] and [undefined]. *)
Definition omit (object : JsValue) (paths : list string) : gmap string JsValue :=
  foldr delete (enumerableProps object) paths.

(** What a call leaves in the outside world. *)
Inductive Effect : Type :=
  | SegmentPage (payload : JsValue)
  | SegmentTrack (payload : JsValue)
  | CaptureMessage (message : string).

Inductive JsError : Type :=
  | Error (message : string)
  | TypeError.

(** How a call ends. *)
Inductive Completion (A : Type) : Type :=
  | Normal (a : A)
  | Throw (e : JsError).
Arguments Normal {A} a.
Arguments Throw {A} e.

(** A computation: the effects performed so far, in order, and the
    completion.  Nothing runs after a throw. *)
Definition Eff (A : Type) : Type := (list Effect * Completion A)%type.

#[export] Instance Eff_ret : MRet Eff := λ A a, ([], Normal a).

#[export] Instance Eff_bind : MBind Eff := λ A B f m,
  match m.2 with
  | Normal a => ((m.1 ++ (f a).1)%list, (f a).2)
  | Throw e => (m.1, Throw e)
  end.

Definition throw {A : Type} (e : JsError) : Eff A := ([], Throw e).

Definition emit (x : Effect) : Eff unit := ([x], Normal tt).

(** A property read that may raise. *)
Definition readProp (v : JsValue) (k : string) : Eff JsValue :=
  match getProp v k with
  | Some x => mret x
  | None => throw TypeError
  end.

Definition effects {A : Type} (m : Eff A) : list Effect := m.1.

Definition completion {A : Type} (m : Eff A) : Completion A := m.2.

Definition raises {A : Type} (m : Eff A) : bool :=
  match completion m with Throw _ => true | Normal _ => false end.

(** Reading a key of a payload: [Some] when the value is an object that
    has the key (whatever its value, [undefined] too). *)
Definition field (v : JsValue) (k : string) : option JsValue :=
  match v with
  | JObj o => o !! k
  | _ => None
  end.

(** The payloads of the [segment.track] calls of a trace. *)
Definition trackCalls (l : list Effect) : list JsValue :=
  omap (λ x, match x with SegmentTrack p => Some p | _ => None end) l.

(** The payloads of the [segment.page] calls of a trace. *)
Definition pageCalls (l : list Effect) : list JsValue :=
  omap (λ x, match x with SegmentPage p => Some p | _ => None end) l.

(** What the caller's argument holds under a key, once the default
    [config = {}] is applied; [undefined] where there is nothing to
    read. *)
Definition configField (arg : JsValue) (k : string) : JsValue :=
  default JUndefined (getProp (withDefault arg (JObj ∅)) k).

(** A double quote, for the messages that contain one. *)
Definition dquote : string := String (Ascii.ascii_of_nat 34) EmptyString.

End Js.

Export Js.

(** * What the module imports

    The helpers, constants and platform accessors that live in other files
    of the extension, and the pattern matcher of the router library. *)

Class Imports : Type := {
  (** [METAMETRICS_ANONYMOUS_ID] of helpers/utils/metametrics.util. *)
  METAMETRICS_ANONYMOUS_ID : string;
  (** [sendCountIsTrackable] of helpers/utils/metametrics.util. *)
  sendCountIsTrackable : Z → bool;
  (** [PATH_NAME_MAP] of helpers/constants/routes, its entries in the
      order of [Object.keys] (route patterns are not integer-like keys, so
      this is the order they were written in). *)
  PATH_NAME_MAP : list (string * string);
  (** The router's compiled pattern, run on a path name with
      [exact: true, strict: true]: the captured route parameters when the
      pattern matches the whole path name. *)
  regexpExec : string → string → option (gmap string JsValue);
  (** [global.platform.getVersion()]. *)
  getVersion : JsValue;
  (** [process.env.METAMASK_ENVIRONMENT]. *)
  METAMASK_ENVIRONMENT : JsValue;
  (** [getPlatform()] of app/scripts/lib/util. *)
  getPlatform : JsValue;
  (** [getEnvironmentType()] of app/scripts/lib/util. *)
  getEnvironmentType : JsValue;
}.

(** The slice of the redux store the provider selects. *)
Record MetaMaskState : Type := {
  network : JsValue;
  metaMetricsId : JsValue;
  participateInMetaMetrics : JsValue;
  metaMetricsSendCount : Z;
}.

(** The router's location. *)
Record Location : Type := {
  pathname : string;
  hash : string;
}.

(** What [matchPath] returns, as far as the provider reads it. *)
Record Match : Type := {
  path : string;
  params : gmap string JsValue;
}.

(** A small stand-in for the router's pattern language, enough to run the
    model on routes made of literal segments and [:name] segments. *)
Module SegmentPattern.

Fixpoint splitAt (sep : Ascii.ascii) (s : string) : list string :=
  match s with
  | EmptyString => [EmptyString]
  | String c s' =>
      if Ascii.eqb c sep then EmptyString :: splitAt sep s'
      else match splitAt sep s' with
           | [] => [String c EmptyString]
           | seg :: segs => String c seg :: segs
           end
  end.

Fixpoint matchSegments (pats segs : list string) : option (gmap string JsValue) :=
  match pats, segs with
  | [], [] => Some ∅
  | String ":"%char name :: pats', seg :: segs' =>
      if String.eqb seg "" then None
      else (λ ps, <[name := JStr seg]> ps) <$> matchSegments pats' segs'
  | pat :: pats', seg :: segs' =>
      if String.eqb pat seg then matchSegments pats' segs' else None
  | _, _ => None
  end.

Definition exec (pattern pathname : string) : option (gmap string JsValue) :=
  matchSegments (splitAt "/"%char pattern) (splitAt "/"%char pathname).

End SegmentPattern.

(** A concrete set of imports to run the model on. *)
Definition sampleImports : Imports := {|
  METAMETRICS_ANONYMOUS_ID := "0x0000000000000000";
  sendCountIsTrackable := λ n, bool_decide (n ∈ [1; 10; 30; 50; 100]%Z);
  PATH_NAME_MAP :=
    [ ("/", "Home");
      ("/unlock", "Unlock Page");
      ("/asset/:asset", "Asset Page");
      ("/settings/contact-list/edit-contact/:address", "Edit Contact Settings Page");
      ("/settings/contact-list/view-my-accounts/:account", "View Account Settings Page");
      ("/send", "Send Page");
      ("/initialize/welcome", "Welcome Page") ];
  regexpExec := SegmentPattern.exec;
  getVersion := JStr "8.1.3";
  METAMASK_ENVIRONMENT := JStr "production";
  getPlatform := JStr "Chrome";
  getEnvironmentType := JStr "popup";
|}.

Section Provider.

Context `{Imports}.

(** [const PATHS_TO_CHECK = Object.keys(PATH_NAME_MAP)]. *)
Definition PATHS_TO_CHECK : list string := PATH_NAME_MAP.*1.

(** [PATH_NAME_MAP[path]]. *)
Definition pathName (path : string) : JsValue :=
  match list_find (λ entry, entry.1 = path) PATH_NAME_MAP with
  | Some (_, entry) => JStr entry.2
  | None => JUndefined
  end.

(** The router's [matchPath(pathname, { path: paths, exact, strict })]
    for a list of patterns: the patterns are tried in order and the first
    one that matches gives the result. *)
Fixpoint matchPath (pathname : string) (paths : list string) : option Match :=
  match paths with
  | [] => None
  | p :: rest =>
      match regexpExec p pathname with
      | Some ps => Some {| path := p; params := ps |}
      | None => matchPath pathname rest
      end
  end.

(** The object handed to [segment.page]. *)
Definition pagePayload (idTrait : string) (idValue : JsValue)
    (location : Location) (m : Match) : JsValue :=
  let name := pathName (path m) in
  JObj (<["properties" := JObj
            (<["params" := JObj (omit (JObj (params m)) ["account"; "address"])]>
            (<["hash" := JStr (hash location)]>
            (<["url" := JStr (path m)]> ∅)))]>
       (<["name" := name]>
       (<[idTrait := idValue]> ∅))).

(** The guard of the page effect. *)
Definition pageTrackingActive (st : MetaMaskState) (location : Location) : bool :=
  startsWith (pathname location) "/initialize"
  || toBoolean (participateInMetaMetrics st).

(** The effect [MetaMetricsProvider] runs whenever the location (or the
    id, or the consent flag) changes. *)
Definition pageEffect (st : MetaMaskState) (location : Location) : Eff unit :=
  if pageTrackingActive st location
  then
    let idTrait := if toBoolean (metaMetricsId st) then "userId" else "anonymousId" in
    let idValue := nullishCoalesce (metaMetricsId st) (JStr METAMETRICS_ANONYMOUS_ID) in
    match matchPath (pathname location) PATHS_TO_CHECK with
    | Some m => emit (SegmentPage (pagePayload idTrait idValue location m))
    | None =>
        if bool_decide (pathname location ≠ "/confirm-transaction")
        then emit (CaptureMessage (pathname location +:+
               " would have issued a page track event to segment, but no route match was found"))
        else mret tt
    end
  else mret tt.

(** The test [/^send|^confirm/u] on a string. *)
Definition sendFlowPattern (s : string) : bool :=
  startsWith s "send" || startsWith s "confirm".

(** [Boolean(event.match(/^send|^confirm/u))]; a truthy [event] that is
    not a string has no [match] method, and calling it raises. *)
Definition isSendFlowEvent (event : JsValue) : Eff bool :=
  match event with
  | JStr s => mret (sendFlowPattern s)
  | _ => throw TypeError
  end.

(** The object handed to [segment.track]. *)
Definition trackPayload (st : MetaMaskState) (idTrait : string) (idValue : JsValue)
    (event category properties excludeMetaMetricsId : JsValue) : JsValue :=
  JObj (<["context" := JObj
            (<["environment_type" := getEnvironmentType]>
            (<["network" := network st]>
            (<["platform" := getPlatform]>
            (<["environment" := METAMASK_ENVIRONMENT]>
            (<["version" := getVersion]> ∅)))))]>
       (<["properties" := JObj
            (<["exclude_meta_metrics_id" := excludeMetaMetricsId]>
            (<["category" := category]>
            (omit properties ["revenue"; "currency"; "value"])))]>
       (<["event" := event]>
       (<[idTrait := idValue]> ∅)))).

(** The [trackEvent] callback; [JUndefined] as argument is a call without
    one. *)
Definition trackEvent (st : MetaMaskState) (arg : JsValue) : Eff JsValue :=
  let config := withDefault arg (JObj ∅) in
  event ← readProp config "event";
  category ← readProp config "category";
  isOptIn ← readProp config "isOptIn";
  let isOptIn := withDefault isOptIn (JBool false) in
  properties ← readProp config "properties";
  let properties := withDefault properties (JObj ∅) in
  if negb (toBoolean event) then
    throw (Error ("MetaMetrics trackEvent function must be provided a payload with an "
                  +:+ dquote +:+ "event" +:+ dquote +:+ " key"))
  else if negb (toBoolean category) then
    throw (Error "MetaMetrics events must be provided a category")
  else
    override ← readProp config "excludeMetaMetricsId";
    let excludeMetaMetricsId := nullishCoalesce override (JBool false) in
    isSendFlow ← isSendFlowEvent event;
    let excludeMetaMetricsId :=
      if isSendFlow && negb (sendCountIsTrackable (metaMetricsSendCount st + 1))
      then JBool true else excludeMetaMetricsId in
    let idTrait := if toBoolean excludeMetaMetricsId then "anonymousId" else "userId" in
    let idValue := if toBoolean excludeMetaMetricsId
                   then JStr METAMETRICS_ANONYMOUS_ID else metaMetricsId st in
    (if toBoolean (participateInMetaMetrics st) || toBoolean isOptIn
     then emit (SegmentTrack (trackPayload st idTrait idValue
                                event category properties excludeMetaMetricsId))
     else mret tt);;
    mret JUndefined.

End Provider.


(** * Sample states, configurations and locations *)

Module Sample.

(** A user who takes part in MetaMetrics. *)
Definition optedIn : MetaMaskState := {|
  network := JStr "1";
  metaMetricsId := JStr "0xabc";
  participateInMetaMetrics := JBool true;
  metaMetricsSendCount := 0;
|}.

(** The same user after one tracked send: the next count, 2, is not
    trackable. *)
Definition optedInAfterSend : MetaMaskState := {|
  network := JStr "1";
  metaMetricsId := JStr "0xabc";
  participateInMetaMetrics := JBool true;
  metaMetricsSendCount := 1;
|}.

(** A user who has not decided yet or has declined: no id. *)
Definition optedOut : MetaMaskState := {|
  network := JStr "1";
  metaMetricsId := JNull;
  participateInMetaMetrics := JBool false;
  metaMetricsSendCount := 0;
|}.

(** A store whose id is the empty string. *)
Definition emptyId : MetaMaskState := {|
  network := JStr "1";
  metaMetricsId := JStr "";
  participateInMetaMetrics := JBool true;
  metaMetricsSendCount := 0;
|}.

(** [{ event: 'Unlocked MetaMask', category: 'Navigation', properties:
    { action: 'Unlock', category: 'Mine', exclude_meta_metrics_id: 'no',
      revenue: 5, currency: 'usd', value: 1 } }]. *)
Definition unlockedProperties : JsValue :=
  JObj (<["value" := JNum 1]>
       (<["currency" := JStr "usd"]>
       (<["revenue" := JNum 5]>
       (<["exclude_meta_metrics_id" := JStr "no"]>
       (<["category" := JStr "Mine"]>
       (<["action" := JStr "Unlock"]> ∅)))))).

Definition unlocked : JsValue :=
  JObj (<["properties" := unlockedProperties]>
       (<["category" := JStr "Navigation"]>
       (<["event" := JStr "Unlocked MetaMask"]> ∅))).

(** What [segment.track] receives for it from a user who takes part. *)
Definition unlockedPayload : JsValue :=
  @trackPayload sampleImports optedIn "userId" (JStr "0xabc")
    (JStr "Unlocked MetaMask") (JStr "Navigation") unlockedProperties (JBool false).

(** [{ event: 'send started', category: 'Transactions' }]. *)
Definition sendStarted : JsValue :=
  JObj (<["category" := JStr "Transactions"]>
       (<["event" := JStr "send started"]> ∅)).

(** [{ event: 'Metrics Opt In', category: 'Onboarding', isOptIn: true }]. *)
Definition optingIn : JsValue :=
  JObj (<["isOptIn" := JBool true]>
       (<["category" := JStr "Onboarding"]>
       (<["event" := JStr "Metrics Opt In"]> ∅))).

(** [{ event: 'Unlocked MetaMask' }]. *)
Definition withoutCategory : JsValue :=
  JObj (<["event" := JStr "Unlocked MetaMask"]> ∅).

(** [{ event: 'Unlocked MetaMask', category: 'Navigation',
       excludeMetaMetricsId: 1 }]. *)
Definition numericOverride : JsValue :=
  JObj (<["excludeMetaMetricsId" := JNum 1]>
       (<["category" := JStr "Navigation"]>
       (<["event" := JStr "Unlocked MetaMask"]> ∅))).

Definition unlockPage : Location :=
  {| pathname := "/unlock"; hash := "" |}.

Definition editContactA : Location :=
  {| pathname := "/settings/contact-list/edit-contact/0xaaa"; hash := "" |}.

Definition editContactB : Location :=
  {| pathname := "/settings/contact-list/edit-contact/0xbbb"; hash := "" |}.

Definition editContactMatch (address : string) : Match :=
  {| path := "/settings/contact-list/edit-contact/:address";
     params := <["address" := JStr address]> ∅ |}.

Definition unknownPage : Location :=
  {| pathname := "/nowhere"; hash := "" |}.

Definition confirmTransaction : Location :=
  {| pathname := "/confirm-transaction"; hash := "" |}.

End Sample.

(** More sample data, for the properties beyond the claims. *)
Module MoreSamples.

Import Sample.

(** [{ event: 7, category: 'Navigation' }]. *)
Definition numericEvent : JsValue :=
  JObj (<["category" := JStr "Navigation"]> (<["event" := JNum 7]> ∅)).

(** [{ category: 'Navigation' }]. *)
Definition withoutEvent : JsValue :=
  JObj (<["category" := JStr "Navigation"]> ∅).

(** What [segment.track] receives for [sendStarted] once the next send
    count is not trackable. *)
Definition sendStartedPayload : JsValue :=
  @trackPayload sampleImports optedInAfterSend "anonymousId"
    (JStr "0x0000000000000000")
    (JStr "send started") (JStr "Transactions") (JObj ∅) (JBool true).

(** What [segment.track] receives for [numericOverride]. *)
Definition numericOverridePayload : JsValue :=
  @trackPayload sampleImports optedIn "anonymousId" (JStr "0x0000000000000000")
    (JStr "Unlocked MetaMask") (JStr "Navigation") (JObj ∅) (JNum 1).

Definition welcomePage : Location :=
  {| pathname := "/initialize/welcome"; hash := "" |}.

Definition welcomeMatch : Match :=
  {| path := "/initialize/welcome"; params := ∅ |}.

Definition etherPage : Location :=
  {| pathname := "/asset/ETH"; hash := "#activity" |}.

Definition etherMatch : Match :=
  {| path := "/asset/:asset"; params := <["asset" := JStr "ETH"]> ∅ |}.

(** What [segment.page] receives on [etherPage] for a user who takes part. *)
Definition etherPagePayload : JsValue :=
  @pagePayload sampleImports "userId" (JStr "0xabc") etherPage etherMatch.

(** What [segment.page] receives on [welcomePage] before the user decides. *)
Definition welcomePagePayload : JsValue :=
  @pagePayload sampleImports "anonymousId" (JStr "0x0000000000000000")
    welcomePage welcomeMatch.

(** Imports whose route table has a pattern and, after it, a literal route
    that the pattern matches too. *)
Definition overlappingImports : Imports := {|
  METAMETRICS_ANONYMOUS_ID := "0x0000000000000000";
  sendCountIsTrackable := λ n, bool_decide (n ∈ [1; 10; 30; 50; 100]%Z);
  PATH_NAME_MAP :=
    [ ("/", "Home");
      ("/asset/:asset", "Asset Page");
      ("/asset/ETH", "Ether Page") ];
  regexpExec := SegmentPattern.exec;
  getVersion := JStr "8.1.3";
  METAMASK_ENVIRONMENT := JStr "production";
  getPlatform := JStr "Chrome";
  getEnvironmentType := JStr "popup";
|}.

End MoreSamples.

(** Running the model on closed data. *)
Ltac run := vm_compute; reflexivity.

(** The single effect of a closed run. *)
Ltac emitted := vm_compute; apply list_elem_of_here.

(** * Properties of the provider *)

Section Properties.

Context `{Imports}.

(** ** Objects *)

Lemma omit_lookup_omitted (object : JsValue) (paths : list string) (k : string) :
  k ∈ paths → omit object paths !! k = None.
Proof.
  unfold omit. induction paths as [|p paths IH]; intros Hin; simpl.
  - by apply elem_of_nil in Hin.
  - destruct (decide (p = k)) as [->|Hne].
    + apply lookup_delete_eq.
    + rewrite lookup_delete_ne by done. apply IH.
      apply elem_of_cons in Hin as [?|?]; [congruence | done].
Qed.

Lemma omit_lookup_kept (object : JsValue) (paths : list string) (k : string) :
  k ∉ paths → omit object paths !! k = enumerableProps object !! k.
Proof.
  unfold omit. induction paths as [|p paths IH]; intros Hnin; simpl; [done|].
  apply not_elem_of_cons in Hnin as [Hne Hnin].
  rewrite lookup_delete_ne by done. by apply IH.
Qed.

(** Two objects that agree outside the omitted keys have the same
    [omit]. *)
Lemma omit_agree (o1 o2 : gmap string JsValue) (paths : list string) :
  (∀ k, k ∉ paths → o1 !! k = o2 !! k) →
  omit (JObj o1) paths = omit (JObj o2) paths.
Proof.
  intros Hagree. apply map_eq. intros k.
  destruct (decide (k ∈ paths)) as [Hin|Hnin].
  - by rewrite !omit_lookup_omitted.
  - rewrite !omit_lookup_kept by done. simpl. by apply Hagree.
Qed.

(** ** The shape of a [trackEvent] call *)

Lemma null_or_not (v : JsValue) : v = JNull ∨ v ≠ JNull.
Proof. destruct v; auto. Qed.

(** Reading the configuration either raises for every key (the caller
    passed [null]) or gives [configField] for every key. *)
Lemma readProp_config (arg : JsValue) :
  (arg = JNull ∧ ∀ k, readProp (withDefault arg (JObj ∅)) k = throw TypeError) ∨
  (∀ k, readProp (withDefault arg (JObj ∅)) k = mret (configField arg k)).
Proof.
  unfold readProp, configField.
  destruct arg; simpl; eauto.
Qed.

Lemma trackEvent_null (st : MetaMaskState) :
  trackEvent st JNull = throw TypeError.
Proof. reflexivity. Qed.

(** The call written out over the fields of the configuration. *)
Lemma trackEvent_unfold (st : MetaMaskState) (arg : JsValue) :
  arg ≠ JNull →
  trackEvent st arg =
    let event := configField arg "event" in
    let category := configField arg "category" in
    let isOptIn := withDefault (configField arg "isOptIn") (JBool false) in
    let properties := withDefault (configField arg "properties") (JObj ∅) in
    if negb (toBoolean event) then
      throw (Error ("MetaMetrics trackEvent function must be provided a payload with an "
                    +:+ dquote +:+ "event" +:+ dquote +:+ " key"))
    else if negb (toBoolean category) then
      throw (Error "MetaMetrics events must be provided a category")
    else
      match event with
      | JStr s =>
          let excl :=
            if sendFlowPattern s && negb (sendCountIsTrackable (metaMetricsSendCount st + 1))
            then JBool true
            else nullishCoalesce (configField arg "excludeMetaMetricsId") (JBool false) in
          let idTrait := if toBoolean excl then "anonymousId" else "userId" in
          let idValue := if toBoolean excl
                         then JStr METAMETRICS_ANONYMOUS_ID else metaMetricsId st in
          (if toBoolean (participateInMetaMetrics st) || toBoolean isOptIn
           then [SegmentTrack (trackPayload st idTrait idValue event category properties excl)]
           else [],
           Normal JUndefined)
      | _ => throw TypeError
      end.
Proof.
  intros Hnn. unfold trackEvent.
  destruct (readProp_config arg) as [[-> _]|Hread]; [done|].
  rewrite !Hread. cbn -[toBoolean withDefault nullishCoalesce trackPayload String.append].
  destruct (negb (toBoolean (configField arg "event"))); [done|].
  destruct (negb (toBoolean (configField arg "category"))); [done|].
  cbn -[toBoolean withDefault nullishCoalesce trackPayload String.append].
  destruct (configField arg "event"); try done.
  cbn -[toBoolean withDefault nullishCoalesce trackPayload String.append].
  destruct (_ || _); reflexivity.
Qed.

(** What an emitted [segment.track] payload is made of. *)
Lemma trackEvent_emits_inv (st : MetaMaskState) (arg payload : JsValue) :
  SegmentTrack payload ∈ effects (trackEvent st arg) →
  ∃ s excl,
    configField arg "event" = JStr s ∧
    excl = (if sendFlowPattern s
               && negb (sendCountIsTrackable (metaMetricsSendCount st + 1))
            then JBool true
            else nullishCoalesce (configField arg "excludeMetaMetricsId") (JBool false)) ∧
    toBoolean (participateInMetaMetrics st)
      || toBoolean (withDefault (configField arg "isOptIn") (JBool false)) = true ∧
    payload = trackPayload st
                (if toBoolean excl then "anonymousId" else "userId")
                (if toBoolean excl then JStr METAMETRICS_ANONYMOUS_ID else metaMetricsId st)
                (JStr s) (configField arg "category")
                (withDefault (configField arg "properties") (JObj ∅)) excl.
Proof.
  destruct (null_or_not arg) as [->|Hnn].
  { rewrite trackEvent_null. intros Hin. by apply elem_of_nil in Hin. }
  rewrite trackEvent_unfold by done. cbv zeta.
  destruct (negb (toBoolean (configField arg "event")));
    [intros Hin; by apply elem_of_nil in Hin|].
  destruct (negb (toBoolean (configField arg "category")));
    [intros Hin; by apply elem_of_nil in Hin|].
  destruct (configField arg "event") as [| | | | |s|];
    try (intros Hin; by apply elem_of_nil in Hin).
  unfold effects; cbn [fst].
  destruct (toBoolean (participateInMetaMetrics st) || _) eqn:Hgate;
    [|intros Hin; by apply elem_of_nil in Hin].
  intros Hin. apply list_elem_of_singleton in Hin. injection Hin as ->.
  eexists _, _. split; [done|]. split; [reflexivity|]. split; done.
Qed.

Lemma trackPayload_properties st idTrait idValue event category properties excl :
  idTrait = "anonymousId" ∨ idTrait = "userId" →
  field (trackPayload st idTrait idValue event category properties excl) "properties"
  = Some (JObj (<["exclude_meta_metrics_id" := excl]>
               (<["category" := category]>
               (omit properties ["revenue"; "currency"; "value"])))).
Proof. intros [->| ->]; reflexivity. Qed.

Lemma trackPayload_anonymousId st idValue event category properties excl :
  let payload := trackPayload st "anonymousId" idValue event category properties excl in
  field payload "anonymousId" = Some idValue ∧ field payload "userId" = None.
Proof. split; reflexivity. Qed.

Lemma trackPayload_userId st idValue event category properties excl :
  let payload := trackPayload st "userId" idValue event category properties excl in
  field payload "userId" = Some idValue ∧ field payload "anonymousId" = None.
Proof. split; reflexivity. Qed.

(** ** Consent *)

(** C1.  Without consent (the flag [participateInMetaMetrics] is false, or
    falsy in any other way) and without the [isOptIn] flag (false, absent
    or falsy), a call to [trackEvent] never calls [segment.track], whatever
    the rest of the configuration and of the state; it leaves no effect at
    all. *)
Theorem trackEvent_without_consent_is_silent (st : MetaMaskState) (arg : JsValue) :
  toBoolean (participateInMetaMetrics st) = false →
  toBoolean (withDefault (configField arg "isOptIn") (JBool false)) = false →
  trackCalls (effects (trackEvent st arg)) = [] ∧ effects (trackEvent st arg) = [].
Proof.
  intros Hconsent HoptIn.
  assert (effects (trackEvent st arg) = []) as ->; [|done].
  destruct (null_or_not arg) as [->|Hnn]; [done|].
  rewrite trackEvent_unfold by done. cbv zeta.
  rewrite Hconsent, HoptIn. cbn [orb].
  repeat case_match; reflexivity.
Qed.

(** ** Required fields *)

(** C2.  A call to [trackEvent] whose configuration has no [event] or no
    [category] (missing, or a falsy value) ends by throwing, and
    [segment.track] has not been called when it throws. *)
Theorem trackEvent_requires_event_and_category (st : MetaMaskState) (arg : JsValue) :
  toBoolean (configField arg "event") = false
  ∨ toBoolean (configField arg "category") = false →
  raises (trackEvent st arg) = true
  ∧ trackCalls (effects (trackEvent st arg)) = [].
Proof.
  intros Hmissing.
  destruct (null_or_not arg) as [->|Hnn]; [done|].
  rewrite trackEvent_unfold by done. cbv zeta.
  destruct (toBoolean (configField arg "event")) eqn:Hevent; [|done].
  destruct Hmissing as [?|Hcategory]; [done|].
  by rewrite Hcategory.
Qed.

(** The error raised names the missing field, [event] first. *)
Lemma trackEvent_missing_event_message (st : MetaMaskState) (arg : JsValue) :
  arg ≠ JNull →
  toBoolean (configField arg "event") = false →
  trackEvent st arg =
    throw (Error ("MetaMetrics trackEvent function must be provided a payload with an "
                  +:+ dquote +:+ "event" +:+ dquote +:+ " key")).
Proof.
  intros Hnn Hevent. rewrite trackEvent_unfold by done. cbv zeta. by rewrite Hevent.
Qed.

Lemma trackEvent_missing_category_message (st : MetaMaskState) (arg : JsValue) :
  arg ≠ JNull →
  toBoolean (configField arg "event") = true →
  toBoolean (configField arg "category") = false →
  trackEvent st arg = throw (Error "MetaMetrics events must be provided a category").
Proof.
  intros Hnn Hevent Hcategory. rewrite trackEvent_unfold by done. cbv zeta.
  by rewrite Hevent, Hcategory.
Qed.

(** ** Identity and anonymization *)

Lemma toBoolean_nullishCoalesce_false (v : JsValue) :
  toBoolean (nullishCoalesce v (JBool false)) = toBoolean v.
Proof. by destruct v. Qed.

(** C4.  When [trackEvent] emits an event whose name starts with [send] or
    [confirm] and the trackability predicate rejects the send count plus
    one, the payload carries the anonymous identifier under [anonymousId]
    and no [userId], whatever the stored user id and whatever the caller
    asked for. *)
Theorem send_flow_past_threshold_is_anonymous
    (st : MetaMaskState) (arg payload : JsValue) (name : string) :
  configField arg "event" = JStr name →
  startsWith name "send" = true ∨ startsWith name "confirm" = true →
  sendCountIsTrackable (metaMetricsSendCount st + 1) = false →
  SegmentTrack payload ∈ effects (trackEvent st arg) →
  field payload "anonymousId" = Some (JStr METAMETRICS_ANONYMOUS_ID)
  ∧ field payload "userId" = None.
Proof.
  intros Hevent Hprefix Hcount Hemit.
  apply trackEvent_emits_inv in Hemit as (s & excl & Hs & Hexcl & _ & ->).
  rewrite Hevent in Hs. injection Hs as <-.
  assert (sendFlowPattern name = true) as Hflow.
  { unfold sendFlowPattern. destruct Hprefix as [-> | ->]; [done|apply orb_true_r]. }
  rewrite Hflow, Hcount in Hexcl. subst excl. cbn [negb andb toBoolean].
  apply trackPayload_anonymousId.
Qed.

(** C9.  When [trackEvent] emits and nothing anonymizes the event (no
    truthy [excludeMetaMetricsId] in the configuration, and the event is
    not a send or confirm event past the threshold), the payload carries
    the stored user id under [userId], as it is, [null] and [undefined]
    included, and no [anonymousId]. *)
Theorem identified_event_carries_stored_id
    (st : MetaMaskState) (arg payload : JsValue) :
  toBoolean (configField arg "excludeMetaMetricsId") = false →
  (∀ name, configField arg "event" = JStr name →
           sendFlowPattern name = true →
           sendCountIsTrackable (metaMetricsSendCount st + 1) = true) →
  SegmentTrack payload ∈ effects (trackEvent st arg) →
  field payload "userId" = Some (metaMetricsId st)
  ∧ field payload "anonymousId" = None.
Proof.
  intros Hoverride Hflow Hemit.
  apply trackEvent_emits_inv in Hemit as (s & excl & Hs & Hexcl & _ & ->).
  assert (toBoolean excl = false) as ->.
  { subst excl. destruct (sendFlowPattern s) eqn:Hpat; cbn [andb].
    - rewrite (Hflow s Hs Hpat). cbn [negb].
      by rewrite toBoolean_nullishCoalesce_false.
    - by rewrite toBoolean_nullishCoalesce_false. }
  apply trackPayload_userId.
Qed.

(** ** The properties of a tracked event *)

(** C5.  The [properties] object of every payload [trackEvent] emits has
    no [revenue], [currency] or [value] key, whatever the caller put in
    [config.properties]. *)
Theorem tracked_properties_omit_revenue_currency_value
    (st : MetaMaskState) (arg payload : JsValue) :
  SegmentTrack payload ∈ effects (trackEvent st arg) →
  ∃ props,
    field payload "properties" = Some (JObj props)
    ∧ props !! "revenue" = None
    ∧ props !! "currency" = None
    ∧ props !! "value" = None.
Proof.
  intros Hemit.
  apply trackEvent_emits_inv in Hemit as (s & excl & _ & _ & _ & ->).
  eexists. split.
  { apply trackPayload_properties. destruct (toBoolean excl); auto. }
  repeat split;
    (do 2 (rewrite lookup_insert_ne by done));
    apply omit_lookup_omitted; set_solver.
Qed.

(** C10, amended.  The [properties] object of every payload [trackEvent]
    emits has a [category] key holding the configuration's category and an
    [exclude_meta_metrics_id] key; both win over keys of the same name in
    [config.properties].  When the caller's [excludeMetaMetricsId] is
    absent, [null] or a boolean, the [exclude_meta_metrics_id] key is a
    boolean that records whether the event was anonymized: [true] with the
    placeholder under [anonymousId] and no [userId], [false] with the stored
    id under [userId] and no [anonymousId].  (Whatever the caller's value,
    the key is truthy in the anonymized case and falsy in the other.) *)
Theorem tracked_properties_category_and_flag
    (st : MetaMaskState) (arg payload : JsValue) :
  SegmentTrack payload ∈ effects (trackEvent st arg) →
  ∃ props excl,
    field payload "properties" = Some (JObj props)
    ∧ props !! "category" = Some (configField arg "category")
    ∧ props !! "exclude_meta_metrics_id" = Some excl
    ∧ (toBoolean excl = true →
         field payload "anonymousId" = Some (JStr METAMETRICS_ANONYMOUS_ID)
         ∧ field payload "userId" = None)
    ∧ (toBoolean excl = false →
         field payload "userId" = Some (metaMetricsId st)
         ∧ field payload "anonymousId" = None)
    ∧ (isNullish (configField arg "excludeMetaMetricsId") = true
       ∨ (∃ b, configField arg "excludeMetaMetricsId" = JBool b) →
       ∃ b, excl = JBool b
            ∧ if b
              then field payload "anonymousId" = Some (JStr METAMETRICS_ANONYMOUS_ID)
                   ∧ field payload "userId" = None
              else field payload "userId" = Some (metaMetricsId st)
                   ∧ field payload "anonymousId" = None).
Proof.
  intros Hemit.
  apply trackEvent_emits_inv in Hemit as (s & excl & _ & Hexcl & _ & ->).
  exists (<["exclude_meta_metrics_id" := excl]>
         (<["category" := configField arg "category"]>
         (omit (withDefault (configField arg "properties") (JObj ∅))
               ["revenue"; "currency"; "value"]))), excl.
  split; [apply trackPayload_properties; destruct (toBoolean excl); auto|].
  split; [by rewrite lookup_insert_ne, lookup_insert_eq|].
  split; [by rewrite lookup_insert_eq|].
  split; [intros ->; apply trackPayload_anonymousId|].
  split; [intros ->; apply trackPayload_userId|].
  intros Hbool.
  assert (∃ b, excl = JBool b) as [b ->].
  { subst excl. case_match; [by eexists|].
    destruct Hbool as [Hnull|[b ->]].
    - unfold nullishCoalesce. rewrite Hnull. by eexists.
    - by eexists. }
  exists b. split; [reflexivity|].
  destruct b; cbn [toBoolean].
  - apply trackPayload_anonymousId.
  - apply trackPayload_userId.
Qed.

(** ** The route table *)

Lemma matchPath_Some (pathname : string) (paths : list string) (m : Match) :
  matchPath pathname paths = Some m →
  path m ∈ paths ∧ regexpExec (path m) pathname = Some (params m).
Proof.
  induction paths as [|p rest IH]; simpl; [done|].
  destruct (regexpExec p pathname) as [ps|] eqn:Hexec.
  - intros [= <-]. simpl. split; [apply list_elem_of_here | done].
  - intros Hrest. destruct (IH Hrest) as [Hin Hps].
    split; [by apply list_elem_of_further | done].
Qed.

(** The first pattern that matches is the one reported. *)
Lemma matchPath_first (pathname : string) (paths : list string) (m : Match) :
  matchPath pathname paths = Some m →
  ∃ before after,
    paths = (before ++ path m :: after)%list
    ∧ Forall (λ p, regexpExec p pathname = None) before.
Proof.
  induction paths as [|p rest IH]; simpl; [done|].
  destruct (regexpExec p pathname) as [ps|] eqn:Hexec.
  - intros [= <-]. by exists [], rest.
  - intros Hrest. destruct (IH Hrest) as (before & after & -> & Hnone).
    exists (p :: before), after. split; [done|]. by constructor.
Qed.

Lemma matchPath_None (pathname : string) (paths : list string) :
  matchPath pathname paths = None ↔
  Forall (λ p, regexpExec p pathname = None) paths.
Proof.
  induction paths as [|p rest IH]; simpl; [by split; [constructor|]|].
  destruct (regexpExec p pathname) as [ps|] eqn:Hexec.
  - split; [done|]. intros Hall. apply Forall_cons in Hall as [? _]. congruence.
  - rewrite IH. split; [by constructor|]. by intros [_ ?]%Forall_cons.
Qed.

(** Every pattern of the table has a name. *)
Lemma pathName_table (p : string) :
  p ∈ PATHS_TO_CHECK →
  ∃ name, pathName p = JStr name ∧ (p, name) ∈ PATH_NAME_MAP.
Proof.
  unfold PATHS_TO_CHECK, pathName. intros Hin.
  apply list_elem_of_fmap in Hin as ([p' name] & Heq & Hin).
  simpl in Heq. subst p.
  destruct (list_find_elem_of (λ entry : string * string, entry.1 = p')
              PATH_NAME_MAP (p', name) Hin eq_refl) as [[i [q n]] Hfind].
  rewrite Hfind.
  apply list_find_Some in Hfind as (Hlook & Hq & _). simpl in Hq. subst q.
  exists n. split; [done|]. by eapply list_elem_of_lookup_2.
Qed.

(** A path name that is itself an entry of the table, and that its own
    pattern matches, is matched: by that entry or by an earlier one. *)
Lemma table_path_is_matched (pathname : string) :
  pathname ∈ PATHS_TO_CHECK →
  is_Some (regexpExec pathname pathname) →
  is_Some (matchPath pathname PATHS_TO_CHECK).
Proof.
  intros Hin [ps Hself].
  destruct (matchPath pathname PATHS_TO_CHECK) as [m|] eqn:Hmatch; [by eexists|].
  apply matchPath_None in Hmatch.
  rewrite Forall_forall in Hmatch. specialize (Hmatch _ Hin). congruence.
Qed.

(** ** The shape of the page effect *)

(** The page effect never throws. *)
Lemma pageEffect_returns (st : MetaMaskState) (location : Location) :
  completion (pageEffect st location) = Normal tt.
Proof. unfold pageEffect. by repeat case_match. Qed.

Lemma pageEffect_matched (st : MetaMaskState) (location : Location) (m : Match) :
  pageTrackingActive st location = true →
  matchPath (pathname location) PATHS_TO_CHECK = Some m →
  effects (pageEffect st location) =
    [SegmentPage (pagePayload
       (if toBoolean (metaMetricsId st) then "userId" else "anonymousId")
       (nullishCoalesce (metaMetricsId st) (JStr METAMETRICS_ANONYMOUS_ID))
       location m)].
Proof. intros Hactive Hmatch. unfold pageEffect. by rewrite Hactive, Hmatch. Qed.

(** What an emitted [segment.page] payload is made of. *)
Lemma pageEffect_emits_inv (st : MetaMaskState) (location : Location) (payload : JsValue) :
  SegmentPage payload ∈ effects (pageEffect st location) →
  pageTrackingActive st location = true
  ∧ ∃ m, matchPath (pathname location) PATHS_TO_CHECK = Some m
         ∧ payload = pagePayload
             (if toBoolean (metaMetricsId st) then "userId" else "anonymousId")
             (nullishCoalesce (metaMetricsId st) (JStr METAMETRICS_ANONYMOUS_ID))
             location m.
Proof.
  unfold pageEffect.
  destruct (pageTrackingActive st location);
    [|intros Hin; by apply elem_of_nil in Hin].
  destruct (matchPath _ _) as [m|].
  - intros Hin. apply list_elem_of_singleton in Hin. injection Hin as ->. eauto.
  - case_bool_decide; intros Hin.
    + by apply list_elem_of_singleton in Hin.
    + by apply elem_of_nil in Hin.
Qed.

Lemma pagePayload_params idTrait idValue location m :
  idTrait = "anonymousId" ∨ idTrait = "userId" →
  ∃ props,
    field (pagePayload idTrait idValue location m) "properties" = Some (JObj props)
    ∧ props !! "params" = Some (JObj (omit (JObj (params m)) ["account"; "address"])).
Proof. intros [->| ->]; eexists; split; reflexivity. Qed.

Lemma pagePayload_name idTrait idValue location m :
  idTrait = "anonymousId" ∨ idTrait = "userId" →
  field (pagePayload idTrait idValue location m) "name" = Some (pathName (path m)).
Proof. intros [->| ->]; reflexivity. Qed.

(** The payload reads the match through its pattern and through the
    parameters that [omit] keeps. *)
Lemma pagePayload_agree idTrait idValue (l1 l2 : Location) (m1 m2 : Match) :
  hash l1 = hash l2 →
  path m1 = path m2 →
  (∀ k, k ∉ ["account"; "address"] → params m1 !! k = params m2 !! k) →
  pagePayload idTrait idValue l1 m1 = pagePayload idTrait idValue l2 m2.
Proof.
  intros Hhash Hpath Hparams. unfold pagePayload.
  by rewrite Hhash, Hpath, (omit_agree _ _ _ Hparams).
Qed.

(** ** Page events *)

(** C3.  The [params] object of every page event the effect emits has no
    [account] and no [address] key; and two navigations that match the
    same pattern with the same hash, and whose route parameters differ in
    [account] and [address] only, emit the same payload. *)
Theorem page_params_hide_account_and_address
    (st : MetaMaskState) (l1 l2 : Location) (m1 m2 : Match) (p1 p2 : JsValue) :
  SegmentPage p1 ∈ effects (pageEffect st l1) →
  (∃ props ps,
      field p1 "properties" = Some (JObj props)
      ∧ props !! "params" = Some (JObj ps)
      ∧ ps !! "account" = None
      ∧ ps !! "address" = None)
  ∧ (SegmentPage p2 ∈ effects (pageEffect st l2) →
     hash l1 = hash l2 →
     matchPath (pathname l1) PATHS_TO_CHECK = Some m1 →
     matchPath (pathname l2) PATHS_TO_CHECK = Some m2 →
     path m1 = path m2 →
     (∀ k, k ∉ ["account"; "address"] → params m1 !! k = params m2 !! k) →
     p1 = p2).
Proof.
  intros Hemit1.
  apply pageEffect_emits_inv in Hemit1 as (_ & m & Hm & ->).
  split.
  - destruct (pagePayload_params
                (if toBoolean (metaMetricsId st) then "userId" else "anonymousId")
                (nullishCoalesce (metaMetricsId st) (JStr METAMETRICS_ANONYMOUS_ID))
                l1 m) as (props & Hprops & Hparams).
    { destruct (toBoolean (metaMetricsId st)); auto. }
    exists props, (omit (JObj (params m)) ["account"; "address"]).
    split; [done|]. split; [done|].
    split; apply omit_lookup_omitted; set_solver.
  - intros Hemit2 Hhash Hm1 Hm2 Hpath Hparams.
    apply pageEffect_emits_inv in Hemit2 as (_ & m' & Hm' & ->).
    rewrite Hm in Hm1. injection Hm1 as ->.
    rewrite Hm' in Hm2. injection Hm2 as ->.
    by apply pagePayload_agree.
Qed.

(** C6, amended.  When page tracking is active (the path starts with
    [/initialize], or the user takes part in MetaMetrics) and the path
    matches a pattern of the route table, the effect makes exactly one call,
    a [segment.page] whose [name] is the name the table gives to the
    matched pattern. *)
Theorem matched_route_emits_one_named_page_event
    (st : MetaMaskState) (location : Location) (m : Match) :
  pageTrackingActive st location = true →
  matchPath (pathname location) PATHS_TO_CHECK = Some m →
  ∃ payload name,
    effects (pageEffect st location) = [SegmentPage payload]
    ∧ field payload "name" = Some (JStr name)
    ∧ pathName (path m) = JStr name
    ∧ (path m, name) ∈ PATH_NAME_MAP.
Proof.
  intros Hactive Hmatch.
  destruct (matchPath_Some _ _ _ Hmatch) as [Hin _].
  destruct (pathName_table _ Hin) as (name & Hname & Htable).
  eexists _, name. split; [by apply pageEffect_matched|].
  split; [|done].
  rewrite pagePayload_name, Hname; [done|].
  destruct (toBoolean (metaMetricsId st)); auto.
Qed.

(** Without consent and outside [/initialize] the effect does nothing,
    table or not. *)
Lemma pageEffect_inactive (st : MetaMaskState) (location : Location) :
  pageTrackingActive st location = false →
  effects (pageEffect st location) = [].
Proof. intros Hactive. unfold pageEffect. by rewrite Hactive. Qed.

(** The identity of a page event, by the stored id: a truthy id goes out
    under [userId]. *)
Lemma page_identity_known (st : MetaMaskState) (location : Location) (payload : JsValue) :
  toBoolean (metaMetricsId st) = true →
  SegmentPage payload ∈ effects (pageEffect st location) →
  field payload "userId" = Some (metaMetricsId st)
  ∧ field payload "anonymousId" = None.
Proof.
  intros Hid Hemit. apply pageEffect_emits_inv in Hemit as (_ & m & _ & ->).
  rewrite Hid. unfold nullishCoalesce.
  destruct (metaMetricsId st); try done; split; reflexivity.
Qed.

(** An id that is [null] or [undefined] is replaced by the anonymous
    placeholder under [anonymousId]. *)
Lemma page_identity_absent (st : MetaMaskState) (location : Location) (payload : JsValue) :
  isNullish (metaMetricsId st) = true →
  SegmentPage payload ∈ effects (pageEffect st location) →
  field payload "anonymousId" = Some (JStr METAMETRICS_ANONYMOUS_ID)
  ∧ field payload "userId" = None.
Proof.
  intros Hid Hemit. apply pageEffect_emits_inv in Hemit as (_ & m & _ & ->).
  unfold nullishCoalesce. rewrite Hid.
  destruct (metaMetricsId st); try done; split; reflexivity.
Qed.

(** A falsy id that is not [null] or [undefined] (the empty string) goes
    out as it is under [anonymousId]: the trait is chosen by truthiness,
    the value by [??]. *)
Lemma page_identity_falsy (st : MetaMaskState) (location : Location) (payload : JsValue) :
  toBoolean (metaMetricsId st) = false →
  isNullish (metaMetricsId st) = false →
  SegmentPage payload ∈ effects (pageEffect st location) →
  field payload "anonymousId" = Some (metaMetricsId st)
  ∧ field payload "userId" = None.
Proof.
  intros Hid Hnn Hemit. apply pageEffect_emits_inv in Hemit as (_ & m & _ & ->).
  unfold nullishCoalesce. rewrite Hid, Hnn. split; reflexivity.
Qed.

(** C8.  When page tracking is active and the path matches no pattern of
    the route table, the effect returns without raising and emits no page
    event; it reports one diagnostic message about the missed page event,
    except on [/confirm-transaction], where it does nothing. *)
Theorem unmatched_route_is_reported_not_raised
    (st : MetaMaskState) (location : Location) :
  pageTrackingActive st location = true →
  matchPath (pathname location) PATHS_TO_CHECK = None →
  raises (pageEffect st location) = false
  ∧ pageCalls (effects (pageEffect st location)) = []
  ∧ (pathname location ≠ "/confirm-transaction" →
     effects (pageEffect st location) =
       [CaptureMessage (pathname location +:+
          " would have issued a page track event to segment, but no route match was found")])
  ∧ (pathname location = "/confirm-transaction" →
     effects (pageEffect st location) = []).
Proof.
  intros Hactive Hmatch.
  split; [unfold raises; by rewrite pageEffect_returns|].
  unfold pageEffect. rewrite Hactive, Hmatch.
  case_bool_decide; by repeat split.
Qed.

End Properties.

(** * Further properties of the provider *)

Section Coverage.

Context `{Imports}.

Lemma toBoolean_JStr (s : string) : toBoolean (JStr s) = true ↔ s ≠ "".
Proof.
  simpl. destruct (String.eqb_spec s ""); simpl; split; congruence.
Qed.

(** The three ways a call to [trackEvent] can go. *)
Lemma trackEvent_cases (st : MetaMaskState) (arg : JsValue) :
  let valid :=
    (∃ name, configField arg "event" = JStr name ∧ name ≠ "")
    ∧ toBoolean (configField arg "category") = true in
  let consent :=
    toBoolean (participateInMetaMetrics st)
    || toBoolean (withDefault (configField arg "isOptIn") (JBool false)) in
  (¬ valid ∧ ∃ e, trackEvent st arg = throw e)
  ∨ (valid ∧ consent = false ∧ trackEvent st arg = ([], Normal JUndefined))
  ∨ (valid ∧ consent = true
     ∧ ∃ payload, trackEvent st arg = ([SegmentTrack payload], Normal JUndefined)).
Proof.
  intros valid consent. subst valid consent.
  destruct (null_or_not arg) as [->|Hnn].
  { left. split; [|by eexists]. intros [(name & Hname & _) _]. discriminate Hname. }
  rewrite trackEvent_unfold by done. cbv zeta.
  destruct (toBoolean (configField arg "event")) eqn:Hevent; cbn [negb].
  2:{ left. split; [|by eexists]. intros [(name & Hname & Hne) _].
      rewrite Hname in Hevent. apply toBoolean_JStr in Hne. congruence. }
  destruct (toBoolean (configField arg "category")) eqn:Hcategory; cbn [negb].
  2:{ left. split; [|by eexists]. intros [_ ?]. congruence. }
  destruct (configField arg "event") as [| | | | |name|] eqn:Hname;
    try (left; split; [|by eexists]; intros [(name & ? & _) _]; congruence).
  apply toBoolean_JStr in Hevent.
  destruct (toBoolean (participateInMetaMetrics st) || _) eqn:Hconsent.
  - right; right. split; [eauto|]. split; [done|]. by eexists.
  - right; left. split; [eauto|]. by split.
Qed.

(** X1.  A call to [trackEvent] calls [segment.track], once and with nothing
    else, exactly when the event is a non-empty string, the category is
    truthy, and the user takes part in MetaMetrics or the call is flagged
    [isOptIn]. *)
Theorem trackEvent_emits_iff (st : MetaMaskState) (arg : JsValue) :
  (∃ payload, effects (trackEvent st arg) = [SegmentTrack payload])
  ↔ (∃ name, configField arg "event" = JStr name ∧ name ≠ "")
    ∧ toBoolean (configField arg "category") = true
    ∧ toBoolean (participateInMetaMetrics st)
      || toBoolean (withDefault (configField arg "isOptIn") (JBool false)) = true.
Proof.
  destruct (trackEvent_cases st arg)
    as [[Hinvalid [e Hrun]]|[(Hvalid & Hconsent & Hrun)|(Hvalid & Hconsent & p & Hrun)]];
    rewrite Hrun; unfold effects; cbn [fst throw].
  - split; [by intros [? ?]|]. intros (Hevent & Hcategory & _). by destruct Hinvalid.
  - split; [by intros [? ?]|]. intros (_ & _ & ?). congruence.
  - split; [|by eexists]. intros _. destruct Hvalid. by repeat split.
Qed.

(** X2.  A call to [trackEvent] either throws, and then it has called
    nothing, or returns [undefined]; it makes at most one call, and that call
    is a [segment.track]. *)
Theorem trackEvent_outcomes (st : MetaMaskState) (arg : JsValue) :
  (raises (trackEvent st arg) = true → effects (trackEvent st arg) = [])
  ∧ (∀ v, completion (trackEvent st arg) = Normal v → v = JUndefined)
  ∧ (length (effects (trackEvent st arg)) ≤ 1)%nat
  ∧ ∀ x, x ∈ effects (trackEvent st arg) → ∃ payload, x = SegmentTrack payload.
Proof.
  destruct (trackEvent_cases st arg)
    as [[_ [e Hrun]]|[(_ & _ & Hrun)|(_ & _ & p & Hrun)]];
    rewrite Hrun; unfold raises, completion, effects; cbn [fst snd throw length].
  - repeat split; [done | lia | intros x Hx; by apply elem_of_nil in Hx].
  - repeat split; [congruence | lia | intros x Hx; by apply elem_of_nil in Hx].
  - repeat split; [done | congruence | lia |].
    intros x Hx. apply list_elem_of_singleton in Hx. by eexists.
Qed.

(** X3.  An [event] that is truthy but not a string (a number, [true], an
    object) passes the two checks and then fails on [event.match]: the call
    throws a TypeError and [segment.track] is not called. *)
Theorem trackEvent_non_string_event_raises (st : MetaMaskState) (arg : JsValue) :
  toBoolean (configField arg "event") = true →
  (∀ name, configField arg "event" ≠ JStr name) →
  toBoolean (configField arg "category") = true →
  trackEvent st arg = throw TypeError.
Proof.
  intros Hevent Hstring Hcategory.
  destruct (null_or_not arg) as [->|Hnn]; [done|].
  rewrite trackEvent_unfold by done. cbv zeta.
  rewrite Hevent, Hcategory. cbn [negb].
  destruct (configField arg "event"); try done. by destruct (Hstring s).
Qed.

(** ** What a tracked event carries *)

(** X4.  The [context] object of every payload [trackEvent] emits has the
    five keys [version], [environment], [platform], [network] and
    [environment_type], and no other: the platform's version, the build
    environment, the platform name, the network the store holds and the
    environment type. *)
Theorem tracked_context (st : MetaMaskState) (arg payload : JsValue) :
  SegmentTrack payload ∈ effects (trackEvent st arg) →
  ∃ context,
    field payload "context" = Some (JObj context)
    ∧ context !! "version" = Some getVersion
    ∧ context !! "environment" = Some METAMASK_ENVIRONMENT
    ∧ context !! "platform" = Some getPlatform
    ∧ context !! "network" = Some (network st)
    ∧ context !! "environment_type" = Some getEnvironmentType
    ∧ dom context
      = {[ "version"; "environment"; "platform"; "network"; "environment_type" ]}.
Proof.
  intros Hemit.
  apply trackEvent_emits_inv in Hemit as (name & excl & _ & _ & _ & ->).
  eexists. split; [by destruct (toBoolean excl)|].
  do 5 (split; [reflexivity|]).
  rewrite !dom_insert_L, dom_empty_L. set_solver.
Qed.

(** X5.  Every payload [trackEvent] emits is an object with four keys: the
    event name as the caller gave it, [properties], [context], and exactly
    one of [userId] and [anonymousId]. *)
Theorem tracked_payload_shape (st : MetaMaskState) (arg payload : JsValue) :
  SegmentTrack payload ∈ effects (trackEvent st arg) →
  ∃ o,
    payload = JObj o
    ∧ o !! "event" = Some (configField arg "event")
    ∧ (dom o = {[ "userId"; "event"; "properties"; "context" ]}
       ∨ dom o = {[ "anonymousId"; "event"; "properties"; "context" ]}).
Proof.
  intros Hemit.
  apply trackEvent_emits_inv in Hemit as (name & excl & Hname & _ & _ & ->).
  rewrite Hname. unfold trackPayload. eexists. split; [reflexivity|].
  destruct (toBoolean excl).
  - split; [reflexivity|]. right. rewrite !dom_insert_L, dom_empty_L. set_solver.
  - split; [reflexivity|]. left. rewrite !dom_insert_L, dom_empty_L. set_solver.
Qed.

(** X6.  The identity of a tracked event is one of two: the stored id under
    [userId], or the anonymous placeholder under [anonymousId]; the
    [anonymousId] trait never carries anything but the placeholder. *)
Theorem tracked_identity_is_id_or_placeholder
    (st : MetaMaskState) (arg payload : JsValue) :
  SegmentTrack payload ∈ effects (trackEvent st arg) →
  (field payload "userId" = Some (metaMetricsId st)
   ∧ field payload "anonymousId" = None)
  ∨ (field payload "anonymousId" = Some (JStr METAMETRICS_ANONYMOUS_ID)
     ∧ field payload "userId" = None).
Proof.
  intros Hemit.
  apply trackEvent_emits_inv in Hemit as (name & excl & _ & _ & _ & ->).
  destruct (toBoolean excl); [right|left]; split; reflexivity.
Qed.

(** X7.  A truthy [excludeMetaMetricsId] in the configuration anonymizes
    the event, whatever its name and whatever the send count: the payload
    carries the placeholder under [anonymousId] and no [userId]. *)
Theorem caller_override_anonymizes (st : MetaMaskState) (arg payload : JsValue) :
  toBoolean (configField arg "excludeMetaMetricsId") = true →
  SegmentTrack payload ∈ effects (trackEvent st arg) →
  field payload "anonymousId" = Some (JStr METAMETRICS_ANONYMOUS_ID)
  ∧ field payload "userId" = None.
Proof.
  intros Hoverride Hemit.
  apply trackEvent_emits_inv in Hemit as (name & excl & _ & Hexcl & _ & ->).
  assert (toBoolean excl = true) as ->.
  { subst excl. case_match; [done|].
    by rewrite toBoolean_nullishCoalesce_false. }
  split; reflexivity.
Qed.

(** X8.  The properties the caller passes go through unchanged: apart from
    the three omitted keys and the two keys the tracker sets itself, the
    emitted [properties] object has exactly the keys and values of
    [config.properties]. *)
Theorem tracked_properties_pass_through
    (st : MetaMaskState) (arg payload : JsValue) (own : gmap string JsValue) :
  configField arg "properties" = JObj own →
  SegmentTrack payload ∈ effects (trackEvent st arg) →
  ∃ props,
    field payload "properties" = Some (JObj props)
    ∧ ∀ k, k ∉ ["revenue"; "currency"; "value"; "category"; "exclude_meta_metrics_id"] →
           props !! k = own !! k.
Proof.
  intros Hown Hemit.
  apply trackEvent_emits_inv in Hemit as (name & excl & _ & _ & _ & ->).
  eexists. split; [by destruct (toBoolean excl)|].
  intros k Hk. rewrite Hown.
  repeat (apply not_elem_of_cons in Hk as [? Hk]).
  rewrite !lookup_insert_ne by congruence.
  rewrite omit_lookup_kept; [reflexivity|].
  repeat (apply not_elem_of_cons; split; [assumption|]). apply not_elem_of_nil.
Qed.

(** X9.  Without [config.properties] ([undefined] or [null]) the emitted
    [properties] object has the two keys the tracker sets, [category] and
    [exclude_meta_metrics_id], and nothing else. *)
Theorem tracked_properties_default (st : MetaMaskState) (arg payload : JsValue) :
  isNullish (configField arg "properties") = true →
  SegmentTrack payload ∈ effects (trackEvent st arg) →
  ∃ props,
    field payload "properties" = Some (JObj props)
    ∧ dom props = {[ "category"; "exclude_meta_metrics_id" ]}.
Proof.
  intros Hnone Hemit.
  apply trackEvent_emits_inv in Hemit as (name & excl & _ & _ & _ & ->).
  eexists. split; [by destruct (toBoolean excl)|].
  assert (omit (withDefault (configField arg "properties") (JObj ∅))
            ["revenue"; "currency"; "value"] = ∅) as ->.
  { destruct (configField arg "properties"); try done; apply map_eq; intros k;
      unfold omit; simpl; by rewrite !lookup_delete, ?lookup_empty;
      repeat case_decide. }
  rewrite !dom_insert_L, dom_empty_L. set_solver.
Qed.

(** X10.  The send count matters to send and confirm events only: for any
    other event, two stores that differ in the send count alone give the
    same call. *)
Theorem send_count_only_matters_for_send_flow
    (st st' : MetaMaskState) (arg : JsValue) :
  network st = network st' →
  metaMetricsId st = metaMetricsId st' →
  participateInMetaMetrics st = participateInMetaMetrics st' →
  (∀ name, configField arg "event" = JStr name → sendFlowPattern name = false) →
  trackEvent st arg = trackEvent st' arg.
Proof.
  intros Hnetwork Hid Hconsent Hflow.
  destruct (null_or_not arg) as [->|Hnn]; [done|].
  rewrite !trackEvent_unfold by done. cbv zeta.
  rewrite Hconsent, Hid.
  destruct (negb (toBoolean (configField arg "event"))); [done|].
  destruct (negb (toBoolean (configField arg "category"))); [done|].
  destruct (configField arg "event") as [| | | | |name|] eqn:Hname; try done.
  rewrite (Hflow name eq_refl). cbn [andb].
  unfold trackPayload. by rewrite Hnetwork.
Qed.

(** X11.  The two validation errors, in the order of the checks: a missing
    or falsy [event] gives the error about the [event] key, whatever the
    category; with an event, a missing or falsy [category] gives the error
    about the category. *)
Theorem trackEvent_validation_errors (st : MetaMaskState) (arg : JsValue) :
  arg ≠ JNull →
  (toBoolean (configField arg "event") = false →
   trackEvent st arg =
     throw (Error ("MetaMetrics trackEvent function must be provided a payload with an "
                   +:+ dquote +:+ "event" +:+ dquote +:+ " key")))
  ∧ (toBoolean (configField arg "event") = true →
     toBoolean (configField arg "category") = false →
     trackEvent st arg = throw (Error "MetaMetrics events must be provided a category")).
Proof.
  intros Hnn. split.
  - by apply trackEvent_missing_event_message.
  - by apply trackEvent_missing_category_message.
Qed.

(** ** What the page effect does and carries *)

(** X12.  For a user who does not take part in MetaMetrics, a navigation
    outside [/initialize] does nothing at all: no page event and no
    diagnostic, whether the path is in the route table or not. *)
Theorem no_page_tracking_without_consent (st : MetaMaskState) (location : Location) :
  toBoolean (participateInMetaMetrics st) = false →
  startsWith (pathname location) "/initialize" = false →
  pageEffect st location = ([], Normal tt).
Proof.
  intros Hconsent Hprefix. unfold pageEffect, pageTrackingActive.
  by rewrite Hconsent, Hprefix.
Qed.

(** X13.  The page effect never throws, never calls [segment.track], and
    makes at most one call (a page event or a diagnostic, never both). *)
Theorem pageEffect_outcomes (st : MetaMaskState) (location : Location) :
  completion (pageEffect st location) = Normal tt
  ∧ trackCalls (effects (pageEffect st location)) = []
  ∧ (length (effects (pageEffect st location)) ≤ 1)%nat.
Proof.
  split; [apply pageEffect_returns|].
  unfold pageEffect. repeat case_match; simpl; split; (reflexivity || lia).
Qed.

(** X14.  The [properties] of a page event have three keys: [url] is the
    matched route pattern (not the path the user is on), [hash] is the
    location's hash, and [params] holds every route parameter other than
    [account] and [address] with the value the match gave it. *)
Theorem page_properties_shape
    (st : MetaMaskState) (location : Location) (m : Match) (payload : JsValue) :
  matchPath (pathname location) PATHS_TO_CHECK = Some m →
  SegmentPage payload ∈ effects (pageEffect st location) →
  ∃ props ps,
    field payload "properties" = Some (JObj props)
    ∧ dom props = {[ "url"; "hash"; "params" ]}
    ∧ props !! "url" = Some (JStr (path m))
    ∧ props !! "hash" = Some (JStr (hash location))
    ∧ props !! "params" = Some (JObj ps)
    ∧ ∀ k, k ∉ ["account"; "address"] → ps !! k = params m !! k.
Proof.
  intros Hmatch Hemit.
  apply pageEffect_emits_inv in Hemit as (_ & m' & Hm' & ->).
  rewrite Hmatch in Hm'. injection Hm' as <-.
  eexists _, _. split; [by destruct (toBoolean (metaMetricsId st))|].
  split; [rewrite !dom_insert_L, dom_empty_L; set_solver|].
  do 3 (split; [reflexivity|]).
  intros k Hk. by rewrite omit_lookup_kept.
Qed.

(** X15.  Every page event is an object with three keys: [name],
    [properties], and exactly one of [userId] and [anonymousId]. *)
Theorem page_payload_shape
    (st : MetaMaskState) (location : Location) (payload : JsValue) :
  SegmentPage payload ∈ effects (pageEffect st location) →
  ∃ o,
    payload = JObj o
    ∧ (dom o = {[ "userId"; "name"; "properties" ]}
       ∨ dom o = {[ "anonymousId"; "name"; "properties" ]}).
Proof.
  intros Hemit.
  apply pageEffect_emits_inv in Hemit as (_ & m & _ & ->).
  unfold pagePayload. eexists. split; [reflexivity|].
  destruct (toBoolean (metaMetricsId st)); [left|right];
    rewrite !dom_insert_L, dom_empty_L; set_solver.
Qed.

(** X16.  The identity of a page event for the ids the store holds in
    practice: a truthy id goes out unchanged under [userId], and an id that
    is [null] or [undefined] goes out as the anonymous placeholder under
    [anonymousId]. *)
Theorem page_identity_by_id
    (st : MetaMaskState) (location : Location) (payload : JsValue) :
  SegmentPage payload ∈ effects (pageEffect st location) →
  (toBoolean (metaMetricsId st) = true →
   field payload "userId" = Some (metaMetricsId st)
   ∧ field payload "anonymousId" = None)
  ∧ (isNullish (metaMetricsId st) = true →
     field payload "anonymousId" = Some (JStr METAMETRICS_ANONYMOUS_ID)
     ∧ field payload "userId" = None).
Proof.
  intros Hemit. split; intros Hid.
  - by eapply page_identity_known.
  - by eapply page_identity_absent.
Qed.

(** X17.  Before the user has decided (no id yet, consent or not), a
    navigation to a route of the table under [/initialize] emits exactly one
    page event, and it is anonymous: the placeholder under [anonymousId], no
    [userId]. *)
Theorem initialize_pages_are_tracked_anonymously
    (st : MetaMaskState) (location : Location) (m : Match) :
  startsWith (pathname location) "/initialize" = true →
  isNullish (metaMetricsId st) = true →
  matchPath (pathname location) PATHS_TO_CHECK = Some m →
  ∃ payload,
    effects (pageEffect st location) = [SegmentPage payload]
    ∧ field payload "anonymousId" = Some (JStr METAMETRICS_ANONYMOUS_ID)
    ∧ field payload "userId" = None.
Proof.
  intros Hprefix Hid Hmatch.
  assert (pageTrackingActive st location = true) as Hactive.
  { unfold pageTrackingActive. by rewrite Hprefix. }
  rewrite (pageEffect_matched st location m Hactive Hmatch).
  eexists. split; [reflexivity|].
  unfold nullishCoalesce. rewrite Hid.
  destruct (metaMetricsId st); try done; split; reflexivity.
Qed.

(** ** The order of the route table *)

Lemma matchPath_app (pathname : string) (before : list string) (p : string)
    (rest : list string) (ps : gmap string JsValue) :
  Forall (λ q, regexpExec q pathname = None) before →
  regexpExec p pathname = Some ps →
  matchPath pathname (before ++ p :: rest) = Some {| path := p; params := ps |}.
Proof.
  intros Hbefore Hp. induction Hbefore as [|q before Hq _ IH]; simpl.
  - by rewrite Hp.
  - by rewrite Hq.
Qed.

Lemma pathName_app (before : list (string * string)) (p name : string)
    (after : list (string * string)) :
  PATH_NAME_MAP = (before ++ (p, name) :: after)%list →
  p ∉ before.*1 →
  pathName p = JStr name.
Proof.
  intros Htable Hfresh. unfold pathName.
  assert (list_find (λ entry : string * string, entry.1 = p) PATH_NAME_MAP
          = Some (length before, (p, name))) as ->; [|done].
  apply list_find_Some. rewrite Htable. split; [|split; [done|]].
  - by rewrite list_lookup_middle.
  - intros j [q n] Hj Hlt Hq. simpl in Hq. subst q.
    rewrite lookup_app_l in Hj by done.
    apply Hfresh. apply list_elem_of_fmap. exists (p, n).
    split; [done|]. by eapply list_elem_of_lookup_2.
Qed.

(** X18.  The order of the route table decides: when page tracking is active
    and the path is matched by an entry of the table and by none of the
    entries before it, the one page event emitted has that entry's name and
    that entry's pattern as [url], whatever the later entries match. *)
Theorem first_matching_route_names_the_page
    (st : MetaMaskState) (location : Location)
    (before after : list (string * string)) (p name : string)
    (ps : gmap string JsValue) :
  pageTrackingActive st location = true →
  PATH_NAME_MAP = (before ++ (p, name) :: after)%list →
  Forall (λ q, regexpExec q (pathname location) = None) before.*1 →
  regexpExec p (pathname location) = Some ps →
  ∃ payload props,
    effects (pageEffect st location) = [SegmentPage payload]
    ∧ field payload "name" = Some (JStr name)
    ∧ field payload "properties" = Some (JObj props)
    ∧ props !! "url" = Some (JStr p).
Proof.
  intros Hactive Htable Hbefore Hp.
  assert (matchPath (pathname location) PATHS_TO_CHECK
          = Some {| path := p; params := ps |}) as Hmatch.
  { unfold PATHS_TO_CHECK. rewrite Htable, fmap_app, fmap_cons. simpl.
    by apply matchPath_app. }
  assert (pathName p = JStr name) as Hname.
  { apply (pathName_app before p name after Htable).
    intros Hin. rewrite Forall_forall in Hbefore.
    specialize (Hbefore p Hin). congruence. }
  rewrite (pageEffect_matched st location _ Hactive Hmatch).
  eexists _, _. split; [reflexivity|].
  unfold pagePayload. cbn [path params]. rewrite Hname.
  destruct (toBoolean (metaMetricsId st)); repeat split; reflexivity.
Qed.

End Coverage.

(** * The properties at work on the sample data *)

Import Sample.

#[local] Existing Instance sampleImports.

Example run_unlocked :
  effects (trackEvent optedIn unlocked) = [SegmentTrack unlockedPayload].
Proof. run. Qed.

Example run_no_argument :
  trackEvent optedIn JUndefined =
    ([], Throw (Error ("MetaMetrics trackEvent function must be provided a payload with an "
                       +:+ dquote +:+ "event" +:+ dquote +:+ " key"))).
Proof. run. Qed.

Example run_null_argument : trackEvent optedIn JNull = ([], Throw TypeError).
Proof. run. Qed.

Example run_numeric_event :
  trackEvent optedIn (JObj (<["category" := JStr "Navigation"]> (<["event" := JNum 7]> ∅)))
  = ([], Throw TypeError).
Proof. run. Qed.

Example run_omit_object :
  omit unlockedProperties ["revenue"; "currency"; "value"]
  = <["exclude_meta_metrics_id" := JStr "no"]>
    (<["category" := JStr "Mine"]>
    (<["action" := JStr "Unlock"]> ∅)).
Proof. run. Qed.

Example run_omit_string :
  omit (JStr "ab") ["revenue"; "currency"; "value"]
  = <["1" := JStr "b"]> (<["0" := JStr "a"]> ∅).
Proof. run. Qed.

Example run_omit_null : omit JNull ["revenue"; "currency"; "value"] = ∅.
Proof. run. Qed.

Example run_confirm_transaction :
  pageEffect optedIn confirmTransaction = ([], Normal tt).
Proof. run. Qed.

Example run_initialize_before_consent :
  effects (pageEffect optedOut {| pathname := "/initialize/welcome"; hash := "" |}) =
    [SegmentPage (pagePayload "anonymousId" (JStr "0x0000000000000000")
       {| pathname := "/initialize/welcome"; hash := "" |}
       {| path := "/initialize/welcome"; params := ∅ |})].
Proof. run. Qed.

Lemma trackEvent_without_consent_is_silent_witness :
  toBoolean (participateInMetaMetrics optedOut) = false
  ∧ trackCalls (effects (trackEvent optedOut unlocked)) = []
  ∧ effects (trackEvent optedOut unlocked) = [].
Proof.
  split; [reflexivity|].
  apply (trackEvent_without_consent_is_silent optedOut unlocked); reflexivity.
Defined.

Lemma trackEvent_requires_event_and_category_witness :
  toBoolean (configField withoutCategory "category") = false
  ∧ raises (trackEvent optedIn withoutCategory) = true
  ∧ trackCalls (effects (trackEvent optedIn withoutCategory)) = [].
Proof.
  split; [reflexivity|].
  apply (trackEvent_requires_event_and_category optedIn withoutCategory).
  right. reflexivity.
Defined.

Lemma send_flow_past_threshold_is_anonymous_witness :
  let payload :=
    trackPayload optedInAfterSend "anonymousId" (JStr METAMETRICS_ANONYMOUS_ID)
      (JStr "send started") (JStr "Transactions") (JObj ∅) (JBool true) in
  SegmentTrack payload ∈ effects (trackEvent optedInAfterSend sendStarted)
  ∧ field payload "anonymousId" = Some (JStr METAMETRICS_ANONYMOUS_ID)
  ∧ field payload "userId" = None.
Proof.
  intros payload.
  assert (SegmentTrack payload ∈ effects (trackEvent optedInAfterSend sendStarted))
    as Hemit by emitted.
  split; [exact Hemit|].
  apply (send_flow_past_threshold_is_anonymous
           optedInAfterSend sendStarted payload "send started").
  - reflexivity.
  - left. reflexivity.
  - reflexivity.
  - exact Hemit.
Defined.

Lemma identified_event_carries_stored_id_witness :
  let payload :=
    trackPayload optedOut "userId" JNull
      (JStr "Metrics Opt In") (JStr "Onboarding") (JObj ∅) (JBool false) in
  SegmentTrack payload ∈ effects (trackEvent optedOut optingIn)
  ∧ field payload "userId" = Some JNull
  ∧ field payload "anonymousId" = None.
Proof.
  intros payload.
  assert (SegmentTrack payload ∈ effects (trackEvent optedOut optingIn))
    as Hemit by emitted.
  split; [exact Hemit|].
  apply (identified_event_carries_stored_id optedOut optingIn payload).
  - reflexivity.
  - intros name Hname Hflow. vm_compute in Hname. injection Hname as <-.
    vm_compute in Hflow. discriminate Hflow.
  - exact Hemit.
Defined.

Lemma tracked_properties_omit_revenue_currency_value_witness :
  SegmentTrack unlockedPayload ∈ effects (trackEvent optedIn unlocked)
  ∧ ∃ props,
      field unlockedPayload "properties" = Some (JObj props)
      ∧ props !! "revenue" = None
      ∧ props !! "currency" = None
      ∧ props !! "value" = None.
Proof.
  assert (SegmentTrack unlockedPayload ∈ effects (trackEvent optedIn unlocked))
    as Hemit by emitted.
  split; [exact Hemit|].
  exact (tracked_properties_omit_revenue_currency_value
           optedIn unlocked unlockedPayload Hemit).
Defined.

Example run_unlocked_keeps_action :
  ∃ props,
    field unlockedPayload "properties" = Some (JObj props)
    ∧ props !! "action" = Some (JStr "Unlock").
Proof. eexists. split; reflexivity. Qed.

Lemma tracked_properties_category_and_flag_witness :
  SegmentTrack unlockedPayload ∈ effects (trackEvent optedIn unlocked)
  ∧ isNullish (configField unlocked "excludeMetaMetricsId") = true
  ∧ ∃ props,
      field unlockedPayload "properties" = Some (JObj props)
      ∧ props !! "category" = Some (configField unlocked "category")
      ∧ props !! "exclude_meta_metrics_id" = Some (JBool false)
      ∧ field unlockedPayload "userId" = Some (metaMetricsId optedIn)
      ∧ field unlockedPayload "anonymousId" = None.
Proof.
  assert (SegmentTrack unlockedPayload ∈ effects (trackEvent optedIn unlocked))
    as Hemit by emitted.
  split; [exact Hemit|]. split; [reflexivity|].
  destruct (tracked_properties_category_and_flag optedIn unlocked unlockedPayload Hemit)
    as (props & excl & Hprops & Hcategory & Hflag & _ & _ & Htyped).
  destruct Htyped as (b & -> & Hrecord); [left; reflexivity|].
  exists props. split; [exact Hprops|]. split; [exact Hcategory|].
  destruct b.
  - destruct Hrecord as [Hanonymous _]. vm_compute in Hanonymous.
    discriminate Hanonymous.
  - destruct Hrecord as [Huser Hnone].
    split; [exact Hflag|]. split; [exact Huser | exact Hnone].
Defined.

(** The caller's own [category] and [exclude_meta_metrics_id] lose. *)
Example run_unlocked_overrides :
  ∃ props,
    field unlockedPayload "properties" = Some (JObj props)
    ∧ field unlockedProperties "category" = Some (JStr "Mine")
    ∧ props !! "category" = Some (JStr "Navigation")
    ∧ field unlockedProperties "exclude_meta_metrics_id" = Some (JStr "no")
    ∧ props !! "exclude_meta_metrics_id" = Some (JBool false).
Proof. eexists. repeat split; reflexivity. Qed.

(** C10 as stated fails: with [excludeMetaMetricsId: 1] the event is
    anonymized and the [exclude_meta_metrics_id] key of the emitted
    properties is the number 1, not a boolean. *)
Lemma exclude_flag_not_boolean_counterexample :
  ∃ payload props,
    effects (trackEvent optedIn numericOverride) = [SegmentTrack payload]
    ∧ field payload "anonymousId" = Some (JStr METAMETRICS_ANONYMOUS_ID)
    ∧ field payload "properties" = Some (JObj props)
    ∧ props !! "exclude_meta_metrics_id" = Some (JNum 1)
    ∧ ¬ ∃ b, props !! "exclude_meta_metrics_id" = Some (JBool b).
Proof.
  eexists _, _. split; [reflexivity|]. split; [reflexivity|].
  split; [reflexivity|]. split; [reflexivity|].
  intros [b Hb]. vm_compute in Hb. discriminate Hb.
Qed.

Lemma matched_route_emits_one_named_page_event_witness :
  ∃ payload name,
    effects (pageEffect optedIn unlockPage) = [SegmentPage payload]
    ∧ field payload "name" = Some (JStr name)
    ∧ pathName "/unlock" = JStr name
    ∧ ("/unlock", name) ∈ PATH_NAME_MAP.
Proof.
  apply (matched_route_emits_one_named_page_event
           optedIn unlockPage {| path := "/unlock"; params := ∅ |}).
  - reflexivity.
  - run.
Defined.

Example run_unlock_page_name :
  ∃ payload,
    effects (pageEffect optedIn unlockPage) = [SegmentPage payload]
    ∧ field payload "name" = Some (JStr "Unlock Page").
Proof. eexists. split; reflexivity. Qed.

(** C6 as stated fails: [/unlock] is in the route table, but for a user who
    does not take part in MetaMetrics the navigation emits nothing. *)
Lemma page_event_needs_active_tracking_counterexample :
  "/unlock" ∈ PATHS_TO_CHECK
  ∧ matchPath "/unlock" PATHS_TO_CHECK = Some {| path := "/unlock"; params := ∅ |}
  ∧ pathName "/unlock" = JStr "Unlock Page"
  ∧ pageTrackingActive optedOut unlockPage = false
  ∧ effects (pageEffect optedOut unlockPage) = []
  ∧ ¬ ∃ payload, effects (pageEffect optedOut unlockPage) = [SegmentPage payload].
Proof.
  split; [vm_compute; apply list_elem_of_further, list_elem_of_here|].
  split; [run|]. split; [run|]. split; [run|]. split; [run|].
  intros [payload Hrun]. vm_compute in Hrun. discriminate Hrun.
Qed.

Lemma page_params_hide_account_and_address_witness :
  let p1 := pagePayload "userId" (JStr "0xabc") editContactA (editContactMatch "0xaaa") in
  let p2 := pagePayload "userId" (JStr "0xabc") editContactB (editContactMatch "0xbbb") in
  SegmentPage p1 ∈ effects (pageEffect optedIn editContactA)
  ∧ SegmentPage p2 ∈ effects (pageEffect optedIn editContactB)
  ∧ (∃ props ps,
        field p1 "properties" = Some (JObj props)
        ∧ props !! "params" = Some (JObj ps)
        ∧ ps !! "account" = None
        ∧ ps !! "address" = None)
  ∧ p1 = p2.
Proof.
  intros p1 p2.
  assert (SegmentPage p1 ∈ effects (pageEffect optedIn editContactA)) as Hemit1 by emitted.
  assert (SegmentPage p2 ∈ effects (pageEffect optedIn editContactB)) as Hemit2 by emitted.
  split; [exact Hemit1|]. split; [exact Hemit2|].
  destruct (page_params_hide_account_and_address optedIn editContactA editContactB
              (editContactMatch "0xaaa") (editContactMatch "0xbbb") p1 p2 Hemit1)
    as [Hkeys Hsame].
  split; [exact Hkeys|].
  apply Hsame.
  - exact Hemit2.
  - reflexivity.
  - run.
  - run.
  - reflexivity.
  - intros k Hk. unfold editContactMatch; simpl.
    assert (k ≠ "address") as Hne.
    { intros ->. apply Hk. apply list_elem_of_further, list_elem_of_here. }
    rewrite !lookup_insert_ne by (intros Heq; apply Hne; symmetry; exact Heq).
    reflexivity.
Defined.

Lemma unmatched_route_is_reported_not_raised_witness :
  raises (pageEffect optedIn unknownPage) = false
  ∧ pageCalls (effects (pageEffect optedIn unknownPage)) = []
  ∧ effects (pageEffect optedIn unknownPage) =
      [CaptureMessage
         "/nowhere would have issued a page track event to segment, but no route match was found"]
  ∧ effects (pageEffect optedIn confirmTransaction) = [].
Proof.
  destruct (unmatched_route_is_reported_not_raised optedIn unknownPage)
    as (Hraises & Hpages & Hreport & _); [reflexivity | run |].
  destruct (unmatched_route_is_reported_not_raised optedIn confirmTransaction)
    as (_ & _ & _ & Hspecial); [reflexivity | run |].
  split; [exact Hraises|]. split; [exact Hpages|].
  split; [apply Hreport; discriminate | apply Hspecial; reflexivity].
Defined.

(** C7 fails on a stored id that is the empty string: the page event goes
    out under the [anonymousId] trait with the empty string as its value,
    not with the anonymous placeholder. *)
Theorem page_identity_of_empty_id :
  ∃ payload,
    effects (pageEffect emptyId unlockPage) = [SegmentPage payload]
    ∧ field payload "anonymousId" = Some (JStr "")
    ∧ field payload "userId" = None
    ∧ field payload "anonymousId" ≠ Some (JStr METAMETRICS_ANONYMOUS_ID).
Proof.
  eexists. split; [reflexivity|]. split; [reflexivity|]. split; [reflexivity|].
  intros Heq. vm_compute in Heq. discriminate Heq.
Qed.

(** * The further properties at work on the sample data *)

Import MoreSamples.

Lemma trackEvent_emits_iff_witness :
  toBoolean (participateInMetaMetrics optedOut) = false
  ∧ ∃ payload, effects (trackEvent optedOut optingIn) = [SegmentTrack payload].
Proof.
  split; [reflexivity|].
  apply (proj2 (trackEvent_emits_iff optedOut optingIn)).
  split; [|split; reflexivity].
  exists "Metrics Opt In". split; [reflexivity | discriminate].
Defined.

Lemma trackEvent_non_string_event_raises_witness :
  trackEvent optedIn numericEvent = throw TypeError.
Proof.
  apply (trackEvent_non_string_event_raises optedIn numericEvent).
  - reflexivity.
  - intros name Hname. vm_compute in Hname. discriminate Hname.
  - reflexivity.
Defined.

Lemma tracked_context_witness :
  ∃ context,
    field unlockedPayload "context" = Some (JObj context)
    ∧ context !! "network" = Some (JStr "1")
    ∧ dom context
      = {[ "version"; "environment"; "platform"; "network"; "environment_type" ]}.
Proof.
  assert (SegmentTrack unlockedPayload ∈ effects (trackEvent optedIn unlocked))
    as Hemit by emitted.
  destruct (tracked_context optedIn unlocked unlockedPayload Hemit)
    as (context & Hcontext & _ & _ & _ & Hnetwork & _ & Hdom).
  exists context. split; [exact Hcontext|]. split; [exact Hnetwork | exact Hdom].
Defined.

Lemma tracked_payload_shape_witness :
  ∃ o,
    unlockedPayload = JObj o
    ∧ o !! "event" = Some (JStr "Unlocked MetaMask")
    ∧ (dom o = {[ "userId"; "event"; "properties"; "context" ]}
       ∨ dom o = {[ "anonymousId"; "event"; "properties"; "context" ]}).
Proof.
  assert (SegmentTrack unlockedPayload ∈ effects (trackEvent optedIn unlocked))
    as Hemit by emitted.
  exact (tracked_payload_shape optedIn unlocked unlockedPayload Hemit).
Defined.

Lemma tracked_identity_is_id_or_placeholder_witness :
  (field sendStartedPayload "userId" = Some (JStr "0xabc")
   ∧ field sendStartedPayload "anonymousId" = None)
  ∨ (field sendStartedPayload "anonymousId" = Some (JStr "0x0000000000000000")
     ∧ field sendStartedPayload "userId" = None).
Proof.
  assert (SegmentTrack sendStartedPayload
          ∈ effects (trackEvent optedInAfterSend sendStarted)) as Hemit by emitted.
  exact (tracked_identity_is_id_or_placeholder
           optedInAfterSend sendStarted sendStartedPayload Hemit).
Defined.

Lemma caller_override_anonymizes_witness :
  field numericOverridePayload "anonymousId" = Some (JStr "0x0000000000000000")
  ∧ field numericOverridePayload "userId" = None.
Proof.
  assert (SegmentTrack numericOverridePayload
          ∈ effects (trackEvent optedIn numericOverride)) as Hemit by emitted.
  exact (caller_override_anonymizes optedIn numericOverride numericOverridePayload
           eq_refl Hemit).
Defined.

Lemma tracked_properties_pass_through_witness :
  ∃ props,
    field unlockedPayload "properties" = Some (JObj props)
    ∧ props !! "action" = Some (JStr "Unlock")
    ∧ props !! "missing" = None.
Proof.
  assert (SegmentTrack unlockedPayload ∈ effects (trackEvent optedIn unlocked))
    as Hemit by emitted.
  destruct (tracked_properties_pass_through optedIn unlocked unlockedPayload
              (<["value" := JNum 1]>
              (<["currency" := JStr "usd"]>
              (<["revenue" := JNum 5]>
              (<["exclude_meta_metrics_id" := JStr "no"]>
              (<["category" := JStr "Mine"]>
              (<["action" := JStr "Unlock"]> ∅))))))
              eq_refl Hemit)
    as (props & Hprops & Hkeep).
  exists props. split; [exact Hprops|]. split.
  - rewrite Hkeep; [reflexivity|].
    intros Hin.
    repeat (apply elem_of_cons in Hin as [Hin|Hin]; [discriminate Hin|]).
    by apply elem_of_nil in Hin.
  - rewrite Hkeep; [reflexivity|].
    intros Hin.
    repeat (apply elem_of_cons in Hin as [Hin|Hin]; [discriminate Hin|]).
    by apply elem_of_nil in Hin.
Defined.

Lemma tracked_properties_default_witness :
  ∃ props,
    field sendStartedPayload "properties" = Some (JObj props)
    ∧ dom props = {[ "category"; "exclude_meta_metrics_id" ]}.
Proof.
  assert (SegmentTrack sendStartedPayload
          ∈ effects (trackEvent optedInAfterSend sendStarted)) as Hemit by emitted.
  exact (tracked_properties_default optedInAfterSend sendStarted sendStartedPayload
           eq_refl Hemit).
Defined.

Lemma send_count_only_matters_for_send_flow_witness :
  metaMetricsSendCount optedIn ≠ metaMetricsSendCount optedInAfterSend
  ∧ trackEvent optedIn unlocked = trackEvent optedInAfterSend unlocked.
Proof.
  split; [discriminate|].
  apply (send_count_only_matters_for_send_flow optedIn optedInAfterSend unlocked);
    try reflexivity.
  intros name Hname. vm_compute in Hname. injection Hname as <-. reflexivity.
Defined.

(** The send count does matter to a send event. *)
Example run_send_count_matters :
  trackEvent optedIn sendStarted ≠ trackEvent optedInAfterSend sendStarted.
Proof. intros Heq. vm_compute in Heq. discriminate Heq. Qed.

Lemma trackEvent_validation_errors_witness :
  trackEvent optedIn withoutEvent =
    throw (Error ("MetaMetrics trackEvent function must be provided a payload with an "
                  +:+ dquote +:+ "event" +:+ dquote +:+ " key"))
  ∧ trackEvent optedIn withoutCategory =
      throw (Error "MetaMetrics events must be provided a category").
Proof.
  split.
  - apply (trackEvent_validation_errors optedIn withoutEvent); [discriminate | reflexivity].
  - apply (trackEvent_validation_errors optedIn withoutCategory);
      [discriminate | reflexivity | reflexivity].
Defined.

Lemma no_page_tracking_without_consent_witness :
  matchPath (pathname unlockPage) PATHS_TO_CHECK
    = Some {| path := "/unlock"; params := ∅ |}
  ∧ pageEffect optedOut unlockPage = ([], Normal tt)
  ∧ pageEffect optedOut unknownPage = ([], Normal tt).
Proof.
  split; [run|]. split.
  - apply (no_page_tracking_without_consent optedOut unlockPage); reflexivity.
  - apply (no_page_tracking_without_consent optedOut unknownPage); reflexivity.
Defined.

Lemma page_properties_shape_witness :
  ∃ props ps,
    field etherPagePayload "properties" = Some (JObj props)
    ∧ dom props = {[ "url"; "hash"; "params" ]}
    ∧ props !! "url" = Some (JStr "/asset/:asset")
    ∧ props !! "hash" = Some (JStr "#activity")
    ∧ props !! "params" = Some (JObj ps)
    ∧ ∀ k, k ∉ ["account"; "address"] → ps !! k = params etherMatch !! k.
Proof.
  assert (SegmentPage etherPagePayload ∈ effects (pageEffect optedIn etherPage))
    as Hemit by emitted.
  assert (matchPath (pathname etherPage) PATHS_TO_CHECK = Some etherMatch)
    as Hmatch by run.
  exact (page_properties_shape optedIn etherPage etherMatch etherPagePayload
           Hmatch Hemit).
Defined.

Lemma page_payload_shape_witness :
  ∃ o,
    welcomePagePayload = JObj o
    ∧ (dom o = {[ "userId"; "name"; "properties" ]}
       ∨ dom o = {[ "anonymousId"; "name"; "properties" ]}).
Proof.
  assert (SegmentPage welcomePagePayload ∈ effects (pageEffect optedOut welcomePage))
    as Hemit by emitted.
  exact (page_payload_shape optedOut welcomePage welcomePagePayload Hemit).
Defined.

Lemma page_identity_by_id_witness :
  (field etherPagePayload "userId" = Some (JStr "0xabc")
   ∧ field etherPagePayload "anonymousId" = None)
  ∧ (field welcomePagePayload "anonymousId" = Some (JStr "0x0000000000000000")
     ∧ field welcomePagePayload "userId" = None).
Proof.
  assert (SegmentPage etherPagePayload ∈ effects (pageEffect optedIn etherPage))
    as Hknown by emitted.
  assert (SegmentPage welcomePagePayload ∈ effects (pageEffect optedOut welcomePage))
    as Habsent by emitted.
  split.
  - exact (proj1 (page_identity_by_id optedIn etherPage etherPagePayload Hknown) eq_refl).
  - exact (proj2 (page_identity_by_id optedOut welcomePage welcomePagePayload Habsent)
             eq_refl).
Defined.

Lemma initialize_pages_are_tracked_anonymously_witness :
  toBoolean (participateInMetaMetrics optedOut) = false
  ∧ ∃ payload,
      effects (pageEffect optedOut welcomePage) = [SegmentPage payload]
      ∧ field payload "anonymousId" = Some (JStr METAMETRICS_ANONYMOUS_ID)
      ∧ field payload "userId" = None.
Proof.
  split; [reflexivity|].
  apply (initialize_pages_are_tracked_anonymously optedOut welcomePage welcomeMatch).
  - reflexivity.
  - reflexivity.
  - run.
Defined.

Lemma first_matching_route_names_the_page_witness :
  ∃ payload props,
    effects (@pageEffect overlappingImports optedIn etherPage) = [SegmentPage payload]
    ∧ field payload "name" = Some (JStr "Asset Page")
    ∧ field payload "properties" = Some (JObj props)
    ∧ props !! "url" = Some (JStr "/asset/:asset").
Proof.
  apply (@first_matching_route_names_the_page overlappingImports optedIn etherPage
           [("/", "Home")] [("/asset/ETH", "Ether Page")]
           "/asset/:asset" "Asset Page" (<["asset" := JStr "ETH"]> ∅)).
  - reflexivity.
  - reflexivity.
  - apply Forall_cons. split; [run | apply Forall_nil_2].
  - run.
Defined.

(** The later entry matches the path too, and is not used. *)
Example run_later_route_matches_too :
  @regexpExec overlappingImports "/asset/ETH" (pathname etherPage) = Some ∅.
Proof. run. Qed.
